(** * The API-key Lambda authorizer, [lambda_src/authorizer.py]

    A shallow embedding of [lambda_handler] and of the part of the Python
    runtime it touches: JSON-shaped Python values, the [.get] method,
    truthiness, [str()] inside an f-string, [os.environ], the root logger
    and raised exceptions. *)

From Stdlib Require Import ZArith String List DecimalString.
From Stdlib Require Import Floats.SpecFloat.
From stdpp Require Import base option gmap strings list.

(** ** Python values

    The event is declared [dict[str, Any]]: what the runtime hands over is
    a decoded JSON document, so [Any] ranges over the JSON-shaped values. *)

Module Py.

#[local] Set Warnings "-register-all".

Inductive value : Type :=
  | PyNone
  | PyBool (b : bool)
  | PyInt (z : Z)
  | PyFloat (f : spec_float)
  | PyStr (s : string)
  | PyList (l : list value)
  | PyDict (d : gmap string value).

(** [type(v).__name__], as it appears in an [AttributeError]. *)
Definition type_name (v : value) : string :=
  match v with
  | PyNone => "NoneType"
  | PyBool _ => "bool"
  | PyInt _ => "int"
  | PyFloat _ => "float"
  | PyStr _ => "str"
  | PyList _ => "list"
  | PyDict _ => "dict"
  end.

(** [bool(v)], the test behind [not v]. *)
Definition truthy (v : value) : bool :=
  match v with
  | PyNone => false
  | PyBool b => b
  | PyInt z => negb (z =? 0)%Z
  | PyFloat (S754_zero _) => false
  | PyFloat _ => true
  | PyStr s => negb (String.eqb s "")
  | PyList l => negb (Nat.eqb (length l) 0)
  | PyDict d => negb (Nat.eqb (size d) 0)
  end.

(** [v == s] for a [str] object [s]: [str.__eq__] answers [NotImplemented]
    for every operand that is not a [str], and so does the reflected
    [__eq__] of the other JSON types, which leaves the identity test. *)
Definition eq_str (v : value) (s : string) : bool :=
  match v with
  | PyStr t => String.eqb t s
  | _ => false
  end.

(** The exceptions of a run: [.get] on an object without that attribute,
    and what [str()] may raise (an [int] beyond the digit limit, a nesting
    beyond the recursion limit, an exhausted allocator). *)
Inductive exn : Type :=
  | AttributeError (obj_type attr : string)
  | ValueError
  | RecursionError
  | MemoryError.

End Py.
Export Py.

(** ** The [logging] module *)

Module Logging.

Inductive level : Type := DEBUG | INFO | WARNING | ERROR | CRITICAL.

Definition levelno (l : level) : Z :=
  match l with
  | DEBUG => 10
  | INFO => 20
  | WARNING => 30
  | ERROR => 40
  | CRITICAL => 50
  end.

Record record : Type := LogRecord { record_level : level; record_msg : string }.

End Logging.
Export Logging.

(** ** The process: environment and emitted log records *)

Record process : Type := Process {
  environ : gmap string string;
  emitted : list record
}.

Inductive outcome (A : Type) : Type :=
  | Return (a : A)
  | Raise (e : exn).
Arguments Return {A} a.
Arguments Raise {A} e.

(** A computation runs in a process, returns or raises, and leaves a
    process behind. *)
Definition M (A : Type) : Type := process -> outcome A * process.

Definition ret {A} (a : A) : M A := fun p => (Return a, p).

Definition raise {A} (e : exn) : M A := fun p => (Raise e, p).

Definition bind {A B} (c : M A) (k : A -> M B) : M B :=
  fun p =>
    match c p with
    | (Return a, p') => k a p'
    | (Raise e, p') => (Raise e, p')
    end.

Notation "x <- c ;; k" := (bind c (fun x => k))
  (at level 100, c at next level, right associativity).
Notation "c ;;; k" := (bind c (fun _ => k))
  (at level 100, right associativity).

(** [obj.get(key, default)]: only a [dict] has the attribute. *)
Definition py_get (obj : value) (key : string) (dflt : value) : M value :=
  match obj with
  | PyDict d => ret (default dflt (d !! key))
  | _ => raise (AttributeError (type_name obj) "get")
  end.

(** ** The interpreter's [str()]

    [str()] is the interpreter's, not the repository's: it is a parameter
    of the handler.  It is partial (CPython raises [ValueError] on an
    [int] of more digits than [sys.get_int_max_str_digits()] and
    [RecursionError] on a nesting deeper than its stack allows); it gives
    a [str] back unchanged and formats [None] as ["None"]. *)
Record interpreter : Type := Interpreter {
  py_str : value -> outcome string;
  py_str_text : forall s, py_str (PyStr s) = Return s;
  py_str_none : py_str PyNone = Return "None"
}.

(** An f-string [f"prefix{field}"]: [str(field)] is taken first and may
    raise; nothing else has happened by then. *)
Definition f_string (I : interpreter) (prefix : string) (field : value)
  : M string :=
  fun p =>
    match py_str I field with
    | Return t => (Return (prefix +:+ t), p)
    | Raise e => (Raise e, p)
    end.

(** [os.environ.get(name)]. *)
Definition os_environ_get (name : string) : M (option string) :=
  fun p => (Return (environ p !! name), p).

(** Line 19-20: the root logger, set to [INFO] when the module is loaded. *)
Definition logger_level : level := INFO.

Definition isEnabledFor (l : level) : bool :=
  (levelno logger_level <=? levelno l)%Z.

Definition logger_log (l : level) (m : string) : M unit :=
  fun p =>
    if isEnabledFor l
    then (Return tt, Process (environ p) (emitted p ++ [LogRecord l m]))
    else (Return tt, p).

Definition logger_info := logger_log INFO.
Definition logger_warning := logger_log WARNING.
Definition logger_error := logger_log ERROR.

(** ** The handler *)

Definition ADMIN_API_KEY : string := "ADMIN_API_KEY".

(** The dict display [{"isAuthorized": b}]. *)
Definition verdict (b : bool) : gmap string value :=
  {[ "isAuthorized" := PyBool b ]}.

Definition lambda_handler (I : interpreter)
    (event : gmap string value) (context : value)
  : M (gmap string value) :=
  request_context <- py_get (PyDict event) "requestContext" (PyDict ∅) ;;
  request_id <- py_get request_context "requestId" PyNone ;;
  invoked <- f_string I "Authorizer invoked for request: " request_id ;;
  logger_info invoked ;;;
  expected_api_key <- os_environ_get ADMIN_API_KEY ;;
  match expected_api_key with
  | None | Some "" => (* [not expected_api_key] *)
      logger_error "ADMIN_API_KEY environment variable not set" ;;;
      ret (verdict false)
  | Some expected =>
      headers <- py_get (PyDict event) "headers" (PyDict ∅) ;;
      provided_api_key <- py_get headers "x-api-key" PyNone ;;
      if negb (truthy provided_api_key) then
        logger_warning "No x-api-key header provided" ;;;
        ret (verdict false)
      else if eq_str provided_api_key expected then
        logger_info "API key validated successfully" ;;;
        ret (verdict true)
      else
        logger_warning "Invalid API key provided" ;;;
        ret (verdict false)
  end.

(** ** Vocabulary of the statements *)

(** An entry of the event that is either missing or a JSON object. *)
Definition mapping_or_absent (o : option value) : Prop :=
  match o with
  | None => True
  | Some (PyDict _) => True
  | Some _ => False
  end.

(** [o[key]] when [o] is a JSON object holding [key]. *)
Definition entry (o : option value) (key : string) : option value :=
  match o with
  | Some (PyDict d) => d !! key
  | _ => None
  end.

(** [headers["x-api-key"]] and [requestContext.requestId] of an event. *)
Definition x_api_key (event : gmap string value) : option value :=
  entry (event !! "headers") "x-api-key".

Definition request_id (event : gmap string value) : value :=
  default PyNone (entry (event !! "requestContext") "requestId").

(** [str()] formats the request identifier without raising. *)
Definition formattable (I : interpreter) (v : value) : Prop :=
  exists t, py_str I v = Return t.

(** The secret is unset or the empty string. *)
Definition secret_missing (p : process) : Prop :=
  environ p !! ADMIN_API_KEY = None \/ environ p !! ADMIN_API_KEY = Some "".

(** The five records the handler can emit; [rid] is [str(requestId)]. *)
Definition rec_invoked (rid : string) : record :=
  LogRecord INFO ("Authorizer invoked for request: " +:+ rid).
Definition rec_not_set : record :=
  LogRecord ERROR "ADMIN_API_KEY environment variable not set".
Definition rec_no_header : record :=
  LogRecord WARNING "No x-api-key header provided".
Definition rec_validated : record :=
  LogRecord INFO "API key validated successfully".
Definition rec_invalid : record :=
  LogRecord WARNING "Invalid API key provided".

(** The process after [rs] has been appended to its log. *)
Definition logged (p : process) (rs : list record) : process :=
  Process (environ p) (emitted p ++ rs).

(** What the first two sources of C1 call a valid credential: the secret
    is present and non-empty, the header is present and non-empty, and the
    two strings are equal. *)
Definition credentials_match (p : process) (event : gmap string value) : Prop :=
  exists s h,
    environ p !! ADMIN_API_KEY = Some s /\ s <> "" /\
    x_api_key event = Some (PyStr h) /\ h <> "" /\ h = s.

(** The records a run appended: the log of [p'] past the log of [p]. *)
Definition new_records (p p' : process) : list record :=
  drop (length (emitted p)) (emitted p').

(** The four literal records that close a returning run. *)
Definition outcome_records : list record :=
  [rec_not_set; rec_no_header; rec_validated; rec_invalid].

(** The seven ways through lines 53-79. *)
Inductive run_case (I : interpreter) (event : gmap string value) (p : process)
  : outcome (gmap string value) -> list record -> Prop :=
  | Case_bad_context v :
      event !! "requestContext" = Some v ->
      ~ mapping_or_absent (event !! "requestContext") ->
      run_case I event p (Raise (AttributeError (type_name v) "get")) []
  | Case_bad_id e :
      mapping_or_absent (event !! "requestContext") ->
      py_str I (request_id event) = Raise e ->
      run_case I event p (Raise e) []
  | Case_not_set t :
      mapping_or_absent (event !! "requestContext") ->
      py_str I (request_id event) = Return t ->
      secret_missing p ->
      run_case I event p (Return (verdict false))
        [rec_invoked t; rec_not_set]
  | Case_bad_headers t v :
      mapping_or_absent (event !! "requestContext") ->
      py_str I (request_id event) = Return t ->
      ~ secret_missing p ->
      event !! "headers" = Some v ->
      ~ mapping_or_absent (event !! "headers") ->
      run_case I event p (Raise (AttributeError (type_name v) "get"))
        [rec_invoked t]
  | Case_no_header t :
      mapping_or_absent (event !! "requestContext") ->
      py_str I (request_id event) = Return t ->
      mapping_or_absent (event !! "headers") ->
      ~ secret_missing p ->
      truthy (default PyNone (x_api_key event)) = false ->
      run_case I event p (Return (verdict false))
        [rec_invoked t; rec_no_header]
  | Case_invalid t :
      mapping_or_absent (event !! "requestContext") ->
      py_str I (request_id event) = Return t ->
      mapping_or_absent (event !! "headers") ->
      ~ secret_missing p ->
      truthy (default PyNone (x_api_key event)) = true ->
      ~ credentials_match p event ->
      run_case I event p (Return (verdict false))
        [rec_invoked t; rec_invalid]
  | Case_validated t :
      mapping_or_absent (event !! "requestContext") ->
      py_str I (request_id event) = Return t ->
      mapping_or_absent (event !! "headers") ->
      ~ secret_missing p ->
      credentials_match p event ->
      run_case I event p (Return (verdict true))
        [rec_invoked t; rec_validated].

(** ** An interpreter for the concrete runs

    [str()] on the scalars [None], [bool], [int] and [str], as CPython
    3.11 and later do it with the default limit of 4300 digits.  Floats
    and containers are refused: their text needs the shortest-digits
    algorithm and the insertion order of a [dict], which [gmap] does not
    keep, so this instance stands for CPython on scalars only.  No
    concrete run below formats anything else. *)

Definition int_max_str_digits : nat := 4300.

Definition decimal (z : Z) : string := NilZero.string_of_int (Z.to_int z).

Definition scalar_str (v : value) : outcome string :=
  match v with
  | PyNone => Return "None"
  | PyBool true => Return "True"
  | PyBool false => Return "False"
  | PyInt z =>
      (* more than [int_max_str_digits] decimal digits *)
      if (10 ^ Z.of_nat int_max_str_digits <=? Z.abs z)%Z
      then Raise ValueError
      else Return (decimal z)
  | PyStr s => Return s
  | PyFloat _ | PyList _ | PyDict _ => Raise RecursionError
  end.

Definition scalars : interpreter :=
  Interpreter scalar_str (fun s => eq_refl) eq_refl.

(** ** Concrete processes and events *)

Definition env_secret : process :=
  Process {[ ADMIN_API_KEY := "secret123" ]} [].
Definition env_unset : process := Process ∅ [].
Definition env_empty : process := Process {[ ADMIN_API_KEY := "" ]} [].

(** A process with the secret among other variables. *)
Definition env_secret_among_others : gmap string string :=
  {[ ADMIN_API_KEY := "secret123"; "AWS_REGION" := "us-west-2";
     "LOG_LEVEL" := "DEBUG" ]}.

(** An event as the gateway builds it, carrying [key] in [x-api-key]. *)
Definition gateway_event (key : string) : gmap string value :=
  {[ "headers" := PyDict {[ "x-api-key" := PyStr key;
                            "user-agent" := PyStr "curl/8.5.0" ]};
     "requestContext" := PyDict {[ "requestId" := PyStr "abc123" ]} ]}.

(** The same event with [requestContext] replaced by an arbitrary value. *)
Definition event_with_context (key : string) (rc : value)
  : gmap string value :=
  <[ "requestContext" := rc ]> (gateway_event key).

(** An event whose header mapping is empty. *)
Definition event_no_key (rc : value) : gmap string value :=
  {[ "headers" := PyDict ∅; "requestContext" := rc ]}.

(** A gateway event whose ["x-api-key"] entry is an arbitrary value. *)
Definition event_with_key (key : value) : gmap string value :=
  {[ "headers" := PyDict {[ "x-api-key" := key ]};
     "requestContext" := PyDict {[ "requestId" := PyStr "abc123" ]} ]}.

(** [{"headers": null}] and [{"requestContext": null}]. *)
Definition event_null_headers : gmap string value :=
  {[ "headers" := PyNone ]}.
Definition event_null_context : gmap string value :=
  {[ "requestContext" := PyNone ]}.

(** A well-shaped event whose [requestId] is the integer [10 ** 5000]. *)
Definition event_huge_id (key : string) : gmap string value :=
  event_with_context key (PyDict {[ "requestId" := PyInt (10 ^ 5000) ]}).

(** ** Running the handler, branch by branch *)

Ltac run_handler :=
  unfold lambda_handler, bind, py_get, f_string, ret, raise, os_environ_get,
    logger_info, logger_warning, logger_error, logger_log, logged;
  simpl.

Ltac same_process :=
  cbn [environ emitted]; rewrite <- ?app_assoc; reflexivity.

(** Line 58: [None] and [""] are the falsy values of [os.environ.get]. *)
Lemma not_expected_api_key (o : option string) :
  negb (truthy (from_option PyStr PyNone o)) =
    match o with
    | None | Some "" => true
    | Some _ => false
    end.
Proof. by destruct o as [[|a s]|]. Qed.

Lemma mapping_or_absent_inv o :
  mapping_or_absent o -> o = None \/ exists d, o = Some (PyDict d).
Proof.
  destruct o as [v|]; [|by left].
  destruct v; simpl; intros H; try contradiction. right. by eexists.
Qed.

Lemma mapping_or_absent_dec o : {mapping_or_absent o} + {~ mapping_or_absent o}.
Proof.
  destruct o as [v|]; [destruct v|]; unfold mapping_or_absent;
    first [left; exact I | right; intros []].
Defined.

Lemma secret_missing_inv p :
  secret_missing p \/
  exists s, environ p !! ADMIN_API_KEY = Some s /\ s <> "".
Proof.
  unfold secret_missing.
  destruct (environ p !! ADMIN_API_KEY) as [[|a s]|].
  - left. by right.
  - right. by eexists.
  - left. by left.
Qed.

Lemma configured_not_missing p s :
  environ p !! ADMIN_API_KEY = Some s -> s <> "" -> ~ secret_missing p.
Proof. intros Hs Hne [Hm|Hm]; rewrite Hs in Hm; congruence. Qed.

(** A missing [requestContext], or one without [requestId], is formatted
    as ["None"]; a string identifier as itself. *)
Lemma formattable_none I : formattable I PyNone.
Proof. exists "None". apply py_str_none. Qed.

Lemma formattable_text I s : formattable I (PyStr s).
Proof. exists s. apply py_str_text. Qed.

(** What line 53 hands to the f-string when [.get] does not raise. *)
Lemma request_id_lookup event :
  mapping_or_absent (event !! "requestContext") ->
  exists d, default (PyDict ∅) (event !! "requestContext") = PyDict d
            /\ default PyNone (d !! "requestId") = request_id event.
Proof.
  intros Hrc. unfold request_id, entry.
  destruct (mapping_or_absent_inv _ Hrc) as [->|[d ->]]; simpl.
  - exists ∅. by rewrite lookup_empty.
  - by exists d.
Qed.

Lemma x_api_key_lookup event :
  mapping_or_absent (event !! "headers") ->
  exists d, default (PyDict ∅) (event !! "headers") = PyDict d
            /\ d !! "x-api-key" = x_api_key event.
Proof.
  intros Hh. unfold x_api_key, entry.
  destruct (mapping_or_absent_inv _ Hh) as [->|[d ->]]; simpl.
  - exists ∅. by rewrite lookup_empty.
  - by exists d.
Qed.

(** Line 53 raises when [requestContext] is present and not an object. *)
Lemma run_bad_request_context I event context p :
  ~ mapping_or_absent (event !! "requestContext") ->
  exists v, event !! "requestContext" = Some v /\
    lambda_handler I event context p =
      (Raise (AttributeError (type_name v) "get"), p).
Proof.
  intros Hbad. destruct (event !! "requestContext") as [v|] eqn:Hrc;
    [|by destruct Hbad].
  exists v. split; [done|]. run_handler. rewrite Hrc. simpl.
  destruct v; simpl in Hbad; done.
Qed.

(** Line 53 raises what [str()] raises on the request identifier. *)
Lemma run_bad_request_id I event context p e :
  mapping_or_absent (event !! "requestContext") ->
  py_str I (request_id event) = Raise e ->
  lambda_handler I event context p = (Raise e, p).
Proof.
  intros Hrc Hfmt. destruct (request_id_lookup _ Hrc) as (d & Hd & Hid).
  rewrite <- Hid in Hfmt. run_handler. by rewrite Hd, Hfmt.
Qed.

(** Lines 53-60: the MissingConfiguration branch. *)
Lemma run_missing_configuration I event context p t :
  mapping_or_absent (event !! "requestContext") ->
  py_str I (request_id event) = Return t ->
  secret_missing p ->
  lambda_handler I event context p =
    (Return (verdict false), logged p [rec_invoked t; rec_not_set]).
Proof.
  intros Hrc Hfmt Hs. destruct (request_id_lookup _ Hrc) as (d & Hd & Hid).
  rewrite <- Hid in Hfmt. run_handler. rewrite Hd, Hfmt.
  destruct Hs as [-> | ->]; same_process.
Qed.

(** Lines 64-67 raise when the secret is configured and [headers] is
    present and not an object; the first record is already out. *)
Lemma run_bad_headers I event context p t s :
  mapping_or_absent (event !! "requestContext") ->
  py_str I (request_id event) = Return t ->
  environ p !! ADMIN_API_KEY = Some s -> s <> "" ->
  ~ mapping_or_absent (event !! "headers") ->
  exists v, event !! "headers" = Some v /\
    lambda_handler I event context p =
      (Raise (AttributeError (type_name v) "get"),
       logged p [rec_invoked t]).
Proof.
  intros Hrc Hfmt Hs Hne Hbad.
  destruct (request_id_lookup _ Hrc) as (d & Hd & Hid).
  rewrite <- Hid in Hfmt.
  destruct (event !! "headers") as [v|] eqn:Hh; [|by destruct Hbad].
  exists v. split; [done|]. run_handler. rewrite Hd, Hfmt, Hs, Hh.
  destruct s as [|a s]; [done|]. simpl.
  destruct v; simpl in Hbad; done.
Qed.

(** Lines 64-79: the three branches behind a configured secret. *)
Lemma run_configured I event context p t s :
  mapping_or_absent (event !! "requestContext") ->
  py_str I (request_id event) = Return t ->
  mapping_or_absent (event !! "headers") ->
  environ p !! ADMIN_API_KEY = Some s -> s <> "" ->
  let key := default PyNone (x_api_key event) in
  lambda_handler I event context p =
    if negb (truthy key) then
      (Return (verdict false), logged p [rec_invoked t; rec_no_header])
    else if eq_str key s then
      (Return (verdict true), logged p [rec_invoked t; rec_validated])
    else
      (Return (verdict false), logged p [rec_invoked t; rec_invalid]).
Proof.
  intros Hrc Hfmt Hh Hs Hne key. subst key.
  destruct (request_id_lookup _ Hrc) as (d & Hd & Hid).
  rewrite <- Hid in Hfmt.
  destruct (x_api_key_lookup _ Hh) as (h & Hhd & <-).
  run_handler. rewrite Hd, Hfmt, Hs, Hhd.
  destruct s as [|a s]; [done|]. simpl.
  destruct (negb (truthy _)); [|destruct (eq_str _ _)]; same_process.
Qed.

Lemma verdict_lookup b : verdict b !! "isAuthorized" = Some (PyBool b).
Proof. apply lookup_singleton_eq. Qed.

Lemma verdict_inj b1 b2 : verdict b1 = verdict b2 -> b1 = b2.
Proof.
  intros H. apply (f_equal (fun d => d !! "isAuthorized")) in H.
  rewrite !verdict_lookup in H. congruence.
Qed.

(** The two tests of lines 69 and 74 pass together exactly on the secret. *)
Lemma key_accepted v s :
  s <> "" ->
  (negb (truthy v) = false /\ eq_str v s = true) <-> v = PyStr s.
Proof.
  intros Hne. split.
  - intros [_ He]. destruct v; simpl in He; try discriminate.
    apply String.eqb_eq in He. by subst.
  - intros ->. simpl. rewrite String.eqb_refl. split; [|done].
    destruct (String.eqb s "") eqn:E; [|done].
    apply String.eqb_eq in E. done.
Qed.

Lemma credentials_match_configured p event s :
  environ p !! ADMIN_API_KEY = Some s -> s <> "" ->
  credentials_match p event <-> default PyNone (x_api_key event) = PyStr s.
Proof.
  intros Hs Hne. split.
  - intros (s' & h & Hs' & _ & Hk & _ & ->).
    rewrite Hs in Hs'. injection Hs' as <-. by rewrite Hk.
  - intros Hk. exists s, s. repeat split; try done.
    destruct (x_api_key event) as [v|]; simpl in Hk; by subst.
Qed.

Lemma credentials_match_missing p event :
  secret_missing p -> ~ credentials_match p event.
Proof.
  intros [Hm|Hm] (s & h & Hs & Hne & _); rewrite Hm in Hs; [done|].
  injection Hs as <-. done.
Qed.

Lemma credentials_match_truthy p event :
  credentials_match p event ->
  truthy (default PyNone (x_api_key event)) = true.
Proof.
  intros (s & h & _ & _ & -> & Hne & _). simpl.
  destruct (String.eqb h "") eqn:E; [|done].
  apply String.eqb_eq in E. done.
Qed.

Lemma logged_nil p : logged p [] = p.
Proof. destruct p as [env log]. unfold logged. simpl. by rewrite app_nil_r. Qed.

Lemma new_records_logged p rs : new_records p (logged p rs) = rs.
Proof. unfold new_records, logged. simpl. by rewrite drop_app_length. Qed.

(** Every run is one of the seven cases. *)
Lemma run_classified I event context p :
  exists o rs,
    lambda_handler I event context p = (o, logged p rs) /\
    run_case I event p o rs.
Proof.
  destruct (mapping_or_absent_dec (event !! "requestContext")) as [Hrc|Hrc].
  - destruct (py_str I (request_id event)) as [t|e] eqn:Hfmt.
    + destruct (secret_missing_inv p) as [Hm|(s & Hs & Hne)].
      * eexists _, _. split; [by apply (run_missing_configuration I _ _ _ t)|].
        by constructor.
      * pose proof (configured_not_missing p s Hs Hne) as Hnm.
        destruct (mapping_or_absent_dec (event !! "headers")) as [Hh|Hh].
        -- pose proof (run_configured I event context p t s
                         Hrc Hfmt Hh Hs Hne) as Hrun.
           cbn zeta in Hrun.
           pose proof (credentials_match_configured p event s Hs Hne) as Hcm.
           rewrite <- (key_accepted _ s) in Hcm by done.
           destruct (truthy _) eqn:Ht; [destruct (eq_str _ _)|];
             eexists _, _; (split; [exact Hrun|]).
           ++ apply Case_validated; try done. by rewrite Hcm.
           ++ apply Case_invalid; try done. rewrite Hcm. by intros [_ ?].
           ++ by apply Case_no_header.
        -- destruct (run_bad_headers I event context p t s)
             as (v & Hv & Hrun); [done..|].
           eexists _, _. split; [exact Hrun|]. by constructor.
    + exists (Raise e), []. rewrite logged_nil.
      split; [by apply run_bad_request_id|]. by constructor.
  - destruct (run_bad_request_context I event context p Hrc)
      as (v & Hv & Hrun).
    eexists _, []. rewrite logged_nil. split; [exact Hrun|].
    by constructor.
Qed.

(** Every run either raises or returns a verdict, and touches the process
    only by appending records that the event and the environment determine. *)
Lemma run_frame I event context env :
  exists o rs,
    (forall b, o = Return b -> b = verdict true \/ b = verdict false) /\
    forall log,
      lambda_handler I event context (Process env log) =
        (o, Process env (log ++ rs)).
Proof.
  destruct (mapping_or_absent_dec (event !! "requestContext")) as [Hrc|Hrc].
  - destruct (py_str I (request_id event)) as [t|e] eqn:Hfmt.
    + destruct (secret_missing_inv (Process env [])) as [Hm|(s & Hs & Hne)].
      * exists (Return (verdict false)), [rec_invoked t; rec_not_set].
        split; [|intros log; by apply run_missing_configuration].
        intros b [= <-]. by right.
      * destruct (mapping_or_absent_dec (event !! "headers")) as [Hh|Hh].
        -- pose proof (fun log =>
             run_configured I event context (Process env log) t s
               Hrc Hfmt Hh Hs Hne) as Hrun.
           cbn zeta in Hrun.
           destruct (negb (truthy (default PyNone (x_api_key event))));
             [|destruct (eq_str (default PyNone (x_api_key event)) s)];
             eexists (Return (verdict _)), _;
             (split; [|exact Hrun]); intros b [= <-]; auto.
        -- destruct (run_bad_headers I event context (Process env []) t s)
             as (v & Hv & _); [done..|].
           exists (Raise (AttributeError (type_name v) "get")),
             [rec_invoked t].
           split; [intros b [=]|]. intros log.
           destruct (run_bad_headers I event context (Process env log) t s)
             as (v' & Hv' & ->); [done..|].
           rewrite Hv in Hv'. injection Hv' as <-. reflexivity.
    + exists (Raise e), []. split; [intros b [=]|]. intros log.
      rewrite (run_bad_request_id I event context _ e) by done.
      by rewrite app_nil_r.
  - destruct (run_bad_request_context I event context (Process env []) Hrc)
      as (v & Hv & _).
    exists (Raise (AttributeError (type_name v) "get")), [].
    split; [intros b [=]|]. intros log.
    destruct (run_bad_request_context I event context (Process env log) Hrc)
      as (v' & Hv' & ->).
    rewrite Hv in Hv'. injection Hv' as <-. by rewrite app_nil_r.
Qed.

(** The handler returns exactly on the events that let line 53 through
    (an object under [requestContext], an identifier [str()] formats) and
    keep the receiver of line 67 an object once the secret is configured. *)
Lemma returns_iff I event context p :
  (exists d, fst (lambda_handler I event context p) = Return d) <->
  mapping_or_absent (event !! "requestContext") /\
  formattable I (request_id event) /\
  (secret_missing p \/ mapping_or_absent (event !! "headers")).
Proof.
  destruct (run_classified I event context p) as (o & rs & -> & Hcase).
  cbn [fst]. unfold formattable. split.
  - intros [d ->]. inversion Hcase; subst; eauto 6.
  - intros (Hrc & [t Hfmt] & Hdom).
    inversion Hcase; subst; eauto; try done; try congruence.
    by destruct Hdom.
Qed.

(** On that domain the verdict is the credential test. *)
Lemma run_returning I event context p :
  mapping_or_absent (event !! "requestContext") ->
  formattable I (request_id event) ->
  secret_missing p \/ mapping_or_absent (event !! "headers") ->
  (credentials_match p event /\
   fst (lambda_handler I event context p) = Return (verdict true)) \/
  (~ credentials_match p event /\
   fst (lambda_handler I event context p) = Return (verdict false)).
Proof.
  intros Hrc [t Hfmt] Hdom.
  destruct (run_classified I event context p) as (o & rs & -> & Hcase).
  cbn [fst].
  inversion Hcase; subst; try done; try congruence.
  - right. split; [by apply credentials_match_missing|done].
  - by destruct Hdom.
  - right. split; [|done]. intros Hcm%credentials_match_truthy. congruence.
  - by right.
  - by left.
Qed.

(** ** The scenarios of the specification, on the scalar interpreter *)

Example scenario_valid_key :
  lambda_handler scalars (gateway_event "secret123") PyNone env_secret =
    (Return (verdict true),
     logged env_secret [rec_invoked "abc123"; rec_validated]).
Proof. vm_compute. reflexivity. Qed.

Example scenario_wrong_key :
  lambda_handler scalars (gateway_event "wrong") PyNone env_secret =
    (Return (verdict false),
     logged env_secret [rec_invoked "abc123"; rec_invalid]).
Proof. vm_compute. reflexivity. Qed.

Example scenario_no_header :
  lambda_handler scalars (event_no_key (PyDict ∅)) PyNone env_secret =
    (Return (verdict false),
     logged env_secret [rec_invoked "None"; rec_no_header]).
Proof. vm_compute. reflexivity. Qed.

Example scenario_unset :
  lambda_handler scalars (gateway_event "anything") PyNone env_unset =
    (Return (verdict false),
     logged env_unset [rec_invoked "abc123"; rec_not_set]).
Proof. vm_compute. reflexivity. Qed.

Example scenario_both_empty :
  lambda_handler scalars (gateway_event "") PyNone env_empty =
    (Return (verdict false),
     logged env_empty [rec_invoked "abc123"; rec_not_set]).
Proof. vm_compute. reflexivity. Qed.

(** The comparison is ordinal: case and surrounding blanks count. *)
Example scenario_case_and_blanks :
  fst (lambda_handler scalars (gateway_event "Secret123") PyNone env_secret)
    = Return (verdict false) /\
  fst (lambda_handler scalars (gateway_event " secret123") PyNone env_secret)
    = Return (verdict false) /\
  fst (lambda_handler scalars (gateway_event "secret123 ") PyNone env_secret)
    = Return (verdict false).
Proof. repeat split; vm_compute; reflexivity. Qed.

(** A well-shaped event with the right key, whose [requestId] is the
    integer [10 ** 5000]: [str()] raises at line 53 and nothing is
    logged. *)
Example scenario_unformattable_id :
  lambda_handler scalars (event_huge_id "secret123") PyNone env_secret
    = (Raise ValueError, env_secret).
Proof. vm_compute. reflexivity. Qed.

(** ** The verdict *)

(** C1, as amended: for every environment and every event that line 53
    lets through (its [requestContext] entry is missing or a mapping and
    [str()] formats its [requestId]) and whose [headers] entry is missing
    or a mapping unless the secret is unset or empty, [lambda_handler]
    returns [{"isAuthorized": true}] if and only if ADMIN_API_KEY is present
    and non-empty, the headers hold a present, non-empty ["x-api-key"]
    string, and the two strings are equal; in every other case it returns
    [{"isAuthorized": false}]. *)
Theorem C1_verdict_iff_credentials_match I event context p :
  mapping_or_absent (event !! "requestContext") ->
  formattable I (request_id event) ->
  secret_missing p \/ mapping_or_absent (event !! "headers") ->
  (fst (lambda_handler I event context p) = Return (verdict true)
     <-> credentials_match p event) /\
  (fst (lambda_handler I event context p) = Return (verdict false)
     <-> ~ credentials_match p event).
Proof.
  intros Hrc Hfmt Hdom.
  destruct (run_returning I event context p Hrc Hfmt Hdom)
    as [[Hm ->]|[Hm ->]].
  - repeat split; try done; intros [= H%verdict_inj]; done.
  - repeat split; try done; intros [= H%verdict_inj]; done.
Qed.

Lemma C1_witness :
  fst (lambda_handler scalars (gateway_event "secret123") PyNone env_secret)
    = Return (verdict true)
  <-> credentials_match env_secret (gateway_event "secret123").
Proof.
  apply (C1_verdict_iff_credentials_match scalars
           (gateway_event "secret123") PyNone env_secret).
  - vm_compute. exact I.
  - exists "abc123". vm_compute. reflexivity.
  - right. vm_compute. exact I.
Defined.

(** C1, as stated, fails: the secret and the header agree, yet the handler
    raises at line 53 when [requestContext] is [null]. *)
Lemma C1_counterexample :
  credentials_match env_secret (event_with_context "secret123" PyNone) /\
  lambda_handler scalars (event_with_context "secret123" PyNone) PyNone
    env_secret
    = (Raise (AttributeError "NoneType" "get"), env_secret) /\
  fst (lambda_handler scalars (event_with_context "secret123" PyNone) PyNone
         env_secret) <> Return (verdict true).
Proof.
  split; [|split].
  - exists "secret123", "secret123". repeat split; done.
  - vm_compute. reflexivity.
  - vm_compute. discriminate.
Qed.

(** C2, as amended: for every input event whose [requestContext] and
    [headers] entries are each missing or a mapping and whose [requestId]
    [str()] formats, [lambda_handler] does not raise: it returns a mapping
    with the boolean field [isAuthorized]. *)
Theorem C2_returns_verdict I event context p :
  mapping_or_absent (event !! "requestContext") ->
  mapping_or_absent (event !! "headers") ->
  formattable I (request_id event) ->
  exists b : bool,
    fst (lambda_handler I event context p)
      = Return {[ "isAuthorized" := PyBool b ]}.
Proof.
  intros Hrc Hh Hfmt.
  destruct (run_returning I event context p Hrc Hfmt (or_intror Hh))
    as [[_ ->]|[_ ->]]; by eexists.
Qed.

Lemma C2_witness :
  exists b : bool,
    fst (lambda_handler scalars (gateway_event "wrong") PyNone env_secret)
      = Return {[ "isAuthorized" := PyBool b ]}.
Proof.
  apply (C2_returns_verdict scalars (gateway_event "wrong") PyNone
           env_secret).
  - vm_compute. exact I.
  - vm_compute. exact I.
  - exists "abc123". vm_compute. reflexivity.
Defined.

(** C2, as stated, fails: with a configured secret, [None.get] at line 67
    raises [AttributeError] on the event [{"headers": null}]. *)
Lemma C2_counterexample :
  lambda_handler scalars event_null_headers PyNone env_secret
    = (Raise (AttributeError "NoneType" "get"),
       logged env_secret [rec_invoked "None"]).
Proof. vm_compute. reflexivity. Qed.

(** ** The failure branches *)

(** C3, as amended: for every environment in which ADMIN_API_KEY is unset
    or empty, and every event whose [requestContext] entry is missing or a
    mapping and whose [requestId] [str()] formats (whatever its headers
    entry is, a mapping or not), [lambda_handler] returns
    [{"isAuthorized": false}] and emits an error-level record after the
    invocation record. *)
Theorem C3_missing_configuration I event context p t :
  mapping_or_absent (event !! "requestContext") ->
  py_str I (request_id event) = Return t ->
  secret_missing p ->
  fst (lambda_handler I event context p) = Return (verdict false) /\
  emitted (snd (lambda_handler I event context p)) =
    emitted p ++
      [rec_invoked t;
       LogRecord ERROR "ADMIN_API_KEY environment variable not set"].
Proof.
  intros Hrc Hfmt Hm. by rewrite (run_missing_configuration I _ _ _ t).
Qed.

Lemma C3_witness :
  fst (lambda_handler scalars event_null_headers PyNone env_unset)
    = Return (verdict false) /\
  emitted (snd (lambda_handler scalars event_null_headers PyNone env_unset)) =
    emitted env_unset ++
      [rec_invoked "None";
       LogRecord ERROR "ADMIN_API_KEY environment variable not set"].
Proof.
  apply (C3_missing_configuration scalars event_null_headers PyNone
           env_unset "None").
  - vm_compute. exact I.
  - vm_compute. reflexivity.
  - left. vm_compute. reflexivity.
Defined.

(** C3, as stated, fails: with the secret unset, the event whose
    [requestContext] is [null] raises at line 53, before anything is
    logged. *)
Lemma C3_counterexample :
  secret_missing env_unset /\
  lambda_handler scalars (event_with_context "anything" PyNone) PyNone
    env_unset
    = (Raise (AttributeError "NoneType" "get"), env_unset).
Proof.
  split.
  - left. vm_compute. reflexivity.
  - vm_compute. reflexivity.
Qed.

(** C4, as amended: for every non-empty configured secret and every event
    whose [requestContext] entry is missing or a mapping, whose
    [requestId] [str()] formats, and whose headers (missing or a mapping)
    lack an ["x-api-key"] entry or map it to the empty string,
    [lambda_handler] returns [{"isAuthorized": false}] and emits a
    warning-level record after the invocation record. *)
Theorem C4_missing_credential I event context p t s :
  mapping_or_absent (event !! "requestContext") ->
  py_str I (request_id event) = Return t ->
  environ p !! ADMIN_API_KEY = Some s -> s <> "" ->
  mapping_or_absent (event !! "headers") ->
  x_api_key event = None \/ x_api_key event = Some (PyStr "") ->
  fst (lambda_handler I event context p) = Return (verdict false) /\
  emitted (snd (lambda_handler I event context p)) =
    emitted p ++
      [rec_invoked t; LogRecord WARNING "No x-api-key header provided"].
Proof.
  intros Hrc Hfmt Hs Hne Hh Hk.
  rewrite (run_configured I event context p t s) by done. cbn zeta.
  by destruct Hk as [-> | ->].
Qed.

Lemma C4_witness :
  fst (lambda_handler scalars (gateway_event "") PyNone env_secret)
    = Return (verdict false) /\
  emitted (snd (lambda_handler scalars (gateway_event "") PyNone env_secret))
    = emitted env_secret ++
      [rec_invoked "abc123";
       LogRecord WARNING "No x-api-key header provided"].
Proof.
  apply (C4_missing_credential scalars (gateway_event "") PyNone env_secret
           "abc123" "secret123").
  - vm_compute. exact I.
  - vm_compute. reflexivity.
  - vm_compute. reflexivity.
  - discriminate.
  - vm_compute. exact I.
  - right. vm_compute. reflexivity.
Defined.

(** C4, as stated, fails: the header mapping is empty and the secret is
    configured, yet a [requestContext] that is a string makes line 53
    raise. *)
Lemma C4_counterexample :
  x_api_key (event_no_key (PyStr "abc123")) = None /\
  lambda_handler scalars (event_no_key (PyStr "abc123")) PyNone env_secret
    = (Raise (AttributeError "str" "get"), env_secret).
Proof. split; vm_compute; reflexivity. Qed.

(** C5: whatever the event and the environment, a value returned by
    [lambda_handler] is [{"isAuthorized": true}] or
    [{"isAuthorized": false}], a mapping with that single key. *)
Theorem C5_verdict_shape I event context p d :
  fst (lambda_handler I event context p) = Return d ->
  (d = {[ "isAuthorized" := PyBool true ]} \/
   d = {[ "isAuthorized" := PyBool false ]}) /\
  dom d = {[ "isAuthorized" ]}.
Proof.
  destruct (run_frame I event context (environ p)) as (o & rs & Ho & Hrun).
  destruct p as [env log]. rewrite Hrun. simpl. intros ->.
  split; [by apply Ho|].
  destruct (Ho d eq_refl) as [-> | ->]; apply dom_singleton_L.
Qed.

Lemma C5_witness :
  (verdict true = {[ "isAuthorized" := PyBool true ]} \/
   verdict true = {[ "isAuthorized" := PyBool false ]}) /\
  dom (verdict true) = {[ "isAuthorized" ]}.
Proof.
  apply (C5_verdict_shape scalars (gateway_event "secret123") PyNone
           env_secret).
  vm_compute. reflexivity.
Defined.

(** C6, as amended: the configuration check precedes the credential
    check.  Whenever ADMIN_API_KEY is unset or empty and line 53 lets the
    event through (its [requestContext] entry is missing or a mapping and
    [str()] formats its [requestId]), [lambda_handler] takes the
    MissingConfiguration branch whatever stands under ["headers"]: the
    outcome is the same for every event that differs only there, so the
    header is not inspected and lines 64-79 are not reached. *)
Theorem C6_configuration_first I event context p t :
  mapping_or_absent (event !! "requestContext") ->
  py_str I (request_id event) = Return t ->
  secret_missing p ->
  forall event' : gmap string value,
    (forall k, k <> "headers" -> event' !! k = event !! k) ->
    lambda_handler I event' context p =
      (Return (verdict false), logged p [rec_invoked t; rec_not_set]).
Proof.
  intros Hrc Hfmt Hm event' Hsame.
  assert (event' !! "requestContext" = event !! "requestContext") as Heq
    by (by apply Hsame).
  apply run_missing_configuration; [by rewrite Heq| |done].
  unfold request_id. by rewrite Heq.
Qed.

Lemma C6_witness :
  lambda_handler scalars (<[ "headers" := PyNone ]> (gateway_event ""))
    PyNone env_empty =
    (Return (verdict false),
     logged env_empty [rec_invoked "abc123"; rec_not_set]).
Proof.
  apply (C6_configuration_first scalars (gateway_event "") PyNone env_empty
           "abc123").
  - vm_compute. exact I.
  - vm_compute. reflexivity.
  - right. vm_compute. reflexivity.
  - intros k Hk. by apply lookup_insert_ne.
Defined.

(** C6, as stated, fails: secret and header are both empty, yet the event
    whose [requestContext] is a list raises at line 53 and no error-level
    record is emitted. *)
Lemma C6_counterexample :
  secret_missing env_empty /\
  lambda_handler scalars (event_with_context "" (PyList [])) PyNone env_empty
    = (Raise (AttributeError "list" "get"), env_empty).
Proof.
  split.
  - right. vm_compute. reflexivity.
  - vm_compute. reflexivity.
Qed.

(** ** What the verdict depends on *)

(** C7: the outcome of [lambda_handler] is a function of the event and the
    environment alone.  Two runs from processes with the same environment
    agree, whatever was logged before; so does a second run in the process
    the first one left.  A run leaves the environment as it found it and
    only appends records to the log, the same records each time. *)
Theorem C7_deterministic_and_pure I event context env log log' :
  let run1 := lambda_handler I event context (Process env log) in
  let run1' := lambda_handler I event context (Process env log') in
  let run2 := lambda_handler I event context (snd run1) in
  fst run1 = fst run1' /\
  fst run2 = fst run1 /\
  environ (snd run1) = env /\
  environ (snd run2) = env /\
  exists rs,
    emitted (snd run1) = log ++ rs /\
    emitted (snd run1') = log' ++ rs /\
    emitted (snd run2) = (log ++ rs) ++ rs.
Proof.
  destruct (run_frame I event context env) as (o & rs & _ & Hrun).
  cbn zeta. rewrite (Hrun log), (Hrun log'). cbn [fst snd].
  rewrite (Hrun (log ++ rs)). cbn [fst snd environ emitted].
  repeat split. by exists rs.
Qed.

(** C8, as amended: take two events that line 53 lets through (each
    [requestContext] entry missing or a mapping, each [requestId]
    formatted by [str()]), whose [headers] entries are missing or mappings
    unless the secret is unset or empty, which agree on ["x-api-key"] (both
    lacking it included) and differ arbitrarily elsewhere.  In the same
    environment [lambda_handler] returns the same verdict for both, and
    the formatted [requestId] shows in the first log record only. *)
Theorem C8_ignored_fields I event1 event2 context p t1 t2 :
  mapping_or_absent (event1 !! "requestContext") ->
  mapping_or_absent (event2 !! "requestContext") ->
  py_str I (request_id event1) = Return t1 ->
  py_str I (request_id event2) = Return t2 ->
  secret_missing p \/
    (mapping_or_absent (event1 !! "headers") /\
     mapping_or_absent (event2 !! "headers")) ->
  x_api_key event1 = x_api_key event2 ->
  fst (lambda_handler I event1 context p)
    = fst (lambda_handler I event2 context p) /\
  exists r,
    emitted (snd (lambda_handler I event1 context p))
      = emitted p ++ [rec_invoked t1; r] /\
    emitted (snd (lambda_handler I event2 context p))
      = emitted p ++ [rec_invoked t2; r].
Proof.
  intros Hrc1 Hrc2 Hf1 Hf2 Hdom Hk.
  destruct (secret_missing_inv p) as [Hm|(s & Hs & Hne)].
  - rewrite (run_missing_configuration I event1 _ _ t1),
      (run_missing_configuration I event2 _ _ t2) by done.
    split; [done|]. by exists rec_not_set.
  - destruct Hdom as [Hm|[Hh1 Hh2]];
      [by destruct (configured_not_missing p s Hs Hne)|].
    rewrite (run_configured I event1 context p t1 s),
      (run_configured I event2 context p t2 s) by done.
    cbn zeta. rewrite Hk.
    destruct (negb (truthy _)); [|destruct (eq_str _ _)];
      (split; [done|]); by eexists.
Qed.

Lemma C8_witness :
  fst (lambda_handler scalars (gateway_event "secret123") PyNone env_secret)
    = fst (lambda_handler scalars
             {[ "headers" := PyDict {[ "x-api-key" := PyStr "secret123" ]};
                "body" := PyStr "{}" ]}
             PyNone env_secret).
Proof.
  apply (C8_ignored_fields scalars (gateway_event "secret123")
           {[ "headers" := PyDict {[ "x-api-key" := PyStr "secret123" ]};
              "body" := PyStr "{}" ]}
           PyNone env_secret "abc123" "None").
  - vm_compute. exact I.
  - vm_compute. exact I.
  - vm_compute. reflexivity.
  - vm_compute. reflexivity.
  - right. split; vm_compute; exact I.
  - vm_compute. reflexivity.
Defined.

(** C8, as stated, fails: two events with the same ["x-api-key"] header,
    differing only in [requestContext]; one is accepted, the other raises
    at line 53 because its [requestContext] is a list. *)
Lemma C8_counterexample :
  x_api_key (gateway_event "secret123")
    = x_api_key (event_with_context "secret123" (PyList [])) /\
  fst (lambda_handler scalars (gateway_event "secret123") PyNone env_secret)
    = Return (verdict true) /\
  fst (lambda_handler scalars (event_with_context "secret123" (PyList []))
         PyNone env_secret)
    = Raise (AttributeError "list" "get").
Proof. repeat split; vm_compute; reflexivity. Qed.

(** C9: the Lambda context argument is never read; any two contexts give
    the same outcome, verdict and log alike. *)
Theorem C9_context_ignored I event context1 context2 p :
  lambda_handler I event context1 p = lambda_handler I event context2 p.
Proof. reflexivity. Qed.

(** C10, as amended: an event without the top-level ["headers"] key runs
    exactly as if its header mapping were empty and, when line 53 lets it
    through (its [requestContext] entry is missing or a mapping and [str()]
    formats its [requestId]) and the secret is non-empty, returns
    [{"isAuthorized": false}].  An event without the top-level
    ["requestContext"] key logs the identifier ["None"]; against the same
    event with any [requestContext] mapping whose [requestId] [str()]
    formats, the outcome and every later record are the same, and only the
    identifier in the first record differs. *)
Theorem C10_missing_top_level_keys I event context p :
  (event !! "headers" = None ->
     lambda_handler I event context p
       = lambda_handler I (<[ "headers" := PyDict ∅ ]> event) context p /\
     (mapping_or_absent (event !! "requestContext") ->
      formattable I (request_id event) ->
      forall s, environ p !! ADMIN_API_KEY = Some s -> s <> "" ->
        fst (lambda_handler I event context p) = Return (verdict false))) /\
  (event !! "requestContext" = None ->
     forall (rc : gmap string value) (t : string),
     py_str I (default PyNone (rc !! "requestId")) = Return t ->
     exists o rs,
       lambda_handler I event context p
         = (o, logged p (rec_invoked "None" :: rs)) /\
       lambda_handler I (<[ "requestContext" := PyDict rc ]> event) context p
         = (o, logged p (rec_invoked t :: rs))).
Proof.
  split.
  - intros Hh. split.
    + run_handler. rewrite Hh, lookup_insert_eq, lookup_insert_ne by done.
      reflexivity.
    + intros Hrc [t Hfmt] s Hs Hne.
      rewrite (run_configured I event context p t s); try done.
      * cbn zeta. unfold x_api_key. by rewrite Hh.
      * by rewrite Hh.
  - intros Hrc rc t Hfmt'.
    assert (request_id event = PyNone) as Hid
      by (unfold request_id; by rewrite Hrc).
    assert (py_str I (request_id event) = Return "None") as Hfmt
      by (rewrite Hid; apply py_str_none).
    assert (request_id (<[ "requestContext" := PyDict rc ]> event)
            = default PyNone (rc !! "requestId")) as Hid'
      by (unfold request_id; by rewrite lookup_insert_eq).
    rewrite <- Hid' in Hfmt'.
    assert (x_api_key (<[ "requestContext" := PyDict rc ]> event)
            = x_api_key event) as Hk
      by (unfold x_api_key; by rewrite lookup_insert_ne).
    assert (mapping_or_absent (event !! "requestContext")) as Hrc1
      by (by rewrite Hrc).
    assert (mapping_or_absent
              (<[ "requestContext" := PyDict rc ]> event !! "requestContext"))
      as Hrc2 by (by rewrite lookup_insert_eq).
    destruct (secret_missing_inv p) as [Hm|(s & Hs & Hne)].
    + exists (Return (verdict false)), [rec_not_set].
      by rewrite (run_missing_configuration I event _ _ "None"),
        (run_missing_configuration I (<[ _ := _ ]> event) _ _ t).
    + destruct (mapping_or_absent_dec (event !! "headers")) as [Hh|Hh].
      * assert (mapping_or_absent
                  (<[ "requestContext" := PyDict rc ]> event !! "headers"))
          as Hh2 by (by rewrite lookup_insert_ne).
        rewrite (run_configured I event context p "None" s),
          (run_configured I (<[ "requestContext" := PyDict rc ]> event)
             context p t s) by done.
        cbn zeta. rewrite Hk.
        destruct (negb (truthy _)); [|destruct (eq_str _ _)];
          by eexists _, [_].
      * assert (~ mapping_or_absent
                  (<[ "requestContext" := PyDict rc ]> event !! "headers"))
          as Hh2 by (by rewrite lookup_insert_ne).
        destruct (run_bad_headers I event context p "None" s)
          as (v & Hv & ->); [done..|].
        destruct (run_bad_headers I
                    (<[ "requestContext" := PyDict rc ]> event) context p t s)
          as (v' & Hv' & ->); [done..|].
        rewrite lookup_insert_ne in Hv' by done.
        rewrite Hv in Hv'. injection Hv' as <-.
        by exists (Raise (AttributeError (type_name v) "get")), [].
Qed.

Lemma C10_witness :
  (lambda_handler scalars ∅ PyNone env_secret
     = lambda_handler scalars (<[ "headers" := PyDict ∅ ]> ∅) PyNone
         env_secret /\
   fst (lambda_handler scalars ∅ PyNone env_secret)
     = Return (verdict false)) /\
  exists o rs,
    lambda_handler scalars ∅ PyNone env_secret
      = (o, logged env_secret (rec_invoked "None" :: rs)) /\
    lambda_handler scalars
      (<[ "requestContext" := PyDict {[ "requestId" := PyStr "abc123" ]} ]> ∅)
      PyNone env_secret
      = (o, logged env_secret (rec_invoked "abc123" :: rs)).
Proof.
  destruct (C10_missing_top_level_keys scalars ∅ PyNone env_secret)
    as [Hh Hrc].
  split.
  - destruct (Hh eq_refl) as [Hsame Hfalse].
    split; [exact Hsame|].
    apply (Hfalse I (formattable_none scalars) "secret123");
      [vm_compute; reflexivity | discriminate].
  - exact (Hrc eq_refl {[ "requestId" := PyStr "abc123" ]} "abc123" eq_refl).
Defined.

(** C10, as stated, fails: the event [{"requestContext": null}] has no
    ["headers"] key and the secret is configured, yet the handler raises
    at line 53 instead of returning a verdict. *)
Lemma C10_counterexample :
  event_null_context !! "headers" = None /\
  lambda_handler scalars event_null_context PyNone env_secret
    = (Raise (AttributeError "NoneType" "get"), env_secret).
Proof. split; vm_compute; reflexivity. Qed.

(** ** Beyond the claims: when the handler raises *)

(** X1: the handler returns a value exactly when line 53 lets the event
    through ([requestContext] is missing or a mapping and [str()] formats
    the [requestId]) and, unless the secret is unset or empty, [headers]
    is missing or a mapping; on every other event it raises. *)
Theorem X1_returns_exactly_on_mapping_receivers I event context p :
  (exists d, fst (lambda_handler I event context p) = Return d) <->
  mapping_or_absent (event !! "requestContext") /\
  formattable I (request_id event) /\
  (secret_missing p \/ mapping_or_absent (event !! "headers")).
Proof. apply returns_iff. Qed.

(** X2: a [requestContext] entry that is present and not a mapping makes
    line 53 raise [AttributeError] for the attribute [get], naming the type
    of that entry, whatever the secret and the headers are; the process is
    left as it was, with nothing logged. *)
Theorem X2_bad_request_context_raises_unlogged I event context p v :
  event !! "requestContext" = Some v ->
  ~ mapping_or_absent (Some v) ->
  lambda_handler I event context p
    = (Raise (AttributeError (type_name v) "get"), p).
Proof.
  intros Hv Hbad.
  destruct (run_bad_request_context I event context p) as (v' & Hv' & ->);
    [by rewrite Hv|].
  rewrite Hv in Hv'. by injection Hv' as <-.
Qed.

Lemma X2_witness :
  lambda_handler scalars (event_with_context "secret123" (PyInt 7)) PyNone
    env_unset
    = (Raise (AttributeError (type_name (PyInt 7)) "get"), env_unset).
Proof.
  apply (X2_bad_request_context_raises_unlogged scalars
           (event_with_context "secret123" (PyInt 7)) PyNone env_unset
           (PyInt 7)).
  - vm_compute. reflexivity.
  - simpl. intros [].
Defined.

(** X3: with a non-empty secret, a [requestContext] that is missing or a
    mapping and a [requestId] that [str()] formats, a [headers] entry that
    is present and not a mapping makes line 67 raise [AttributeError]
    naming its type; the invocation record is already logged and no
    outcome record follows. *)
Theorem X3_bad_headers_raise_after_invocation I event context p t s v :
  mapping_or_absent (event !! "requestContext") ->
  py_str I (request_id event) = Return t ->
  environ p !! ADMIN_API_KEY = Some s -> s <> "" ->
  event !! "headers" = Some v ->
  ~ mapping_or_absent (Some v) ->
  lambda_handler I event context p
    = (Raise (AttributeError (type_name v) "get"), logged p [rec_invoked t]).
Proof.
  intros Hrc Hfmt Hs Hne Hv Hbad.
  destruct (run_bad_headers I event context p t s) as (v' & Hv' & ->);
    [done | done | done | done | by rewrite Hv |].
  rewrite Hv in Hv'. by injection Hv' as <-.
Qed.

Lemma X3_witness :
  lambda_handler scalars
    (<[ "headers" := PyList [PyStr "x-api-key"; PyStr "secret123"] ]>
       (gateway_event "secret123"))
    PyNone env_secret
    = (Raise (AttributeError "list" "get"),
       logged env_secret [rec_invoked "abc123"]).
Proof.
  apply (X3_bad_headers_raise_after_invocation scalars
           (<[ "headers" := PyList [PyStr "x-api-key"; PyStr "secret123"] ]>
              (gateway_event "secret123"))
           PyNone env_secret "abc123" "secret123"
           (PyList [PyStr "x-api-key"; PyStr "secret123"])).
  - vm_compute. exact I.
  - vm_compute. reflexivity.
  - vm_compute. reflexivity.
  - discriminate.
  - vm_compute. reflexivity.
  - simpl. intros [].
Defined.

(** X12: when [requestContext] is missing or a mapping and [str()] raises
    on the [requestId], line 53 raises that same exception whatever the
    secret and the headers are; nothing has been logged and no check has
    run. *)
Theorem X12_unformattable_id_raises_unlogged I event context p e :
  mapping_or_absent (event !! "requestContext") ->
  py_str I (request_id event) = Raise e ->
  lambda_handler I event context p = (Raise e, p).
Proof. apply run_bad_request_id. Qed.

Lemma X12_witness :
  lambda_handler scalars (event_huge_id "secret123") PyNone env_secret
    = (Raise ValueError, env_secret).
Proof.
  apply (X12_unformattable_id_raises_unlogged scalars
           (event_huge_id "secret123") PyNone env_secret ValueError).
  - vm_compute. exact I.
  - vm_compute. reflexivity.
Defined.

(** ** Beyond the claims: the two comparison branches *)

(** X4: when [requestContext] and [headers] are each missing or a mapping,
    [str()] formats the [requestId], the secret is non-empty and the
    ["x-api-key"] header is that very string, the handler returns
    [{"isAuthorized": true}] and logs the invocation record followed by
    the info-level record "API key validated successfully". *)
Theorem X4_valid_credential I event context p t s :
  mapping_or_absent (event !! "requestContext") ->
  py_str I (request_id event) = Return t ->
  mapping_or_absent (event !! "headers") ->
  environ p !! ADMIN_API_KEY = Some s -> s <> "" ->
  x_api_key event = Some (PyStr s) ->
  lambda_handler I event context p =
    (Return (verdict true),
     logged p [rec_invoked t;
               LogRecord INFO "API key validated successfully"]).
Proof.
  intros Hrc Hfmt Hh Hs Hne Hk.
  rewrite (run_configured I event context p t s) by done. cbn zeta.
  rewrite Hk. simpl. rewrite String.eqb_refl.
  destruct (String.eqb s "") eqn:E; [|done].
  apply String.eqb_eq in E. done.
Qed.

Lemma X4_witness :
  lambda_handler scalars (gateway_event "secret123") PyNone env_secret =
    (Return (verdict true),
     logged env_secret
       [rec_invoked "abc123";
        LogRecord INFO "API key validated successfully"]).
Proof.
  apply (X4_valid_credential scalars (gateway_event "secret123") PyNone
           env_secret "abc123" "secret123").
  - vm_compute. exact I.
  - vm_compute. reflexivity.
  - vm_compute. exact I.
  - vm_compute. reflexivity.
  - discriminate.
  - vm_compute. reflexivity.
Defined.

(** X5: when [requestContext] and [headers] are each missing or a mapping,
    [str()] formats the [requestId], the secret is non-empty and the
    ["x-api-key"] header is a non-empty string different from it, the
    handler returns [{"isAuthorized": false}] and logs the invocation
    record followed by the warning-level record "Invalid API key
    provided". *)
Theorem X5_credential_mismatch I event context p t s h :
  mapping_or_absent (event !! "requestContext") ->
  py_str I (request_id event) = Return t ->
  mapping_or_absent (event !! "headers") ->
  environ p !! ADMIN_API_KEY = Some s -> s <> "" ->
  x_api_key event = Some (PyStr h) -> h <> "" -> h <> s ->
  lambda_handler I event context p =
    (Return (verdict false),
     logged p [rec_invoked t; LogRecord WARNING "Invalid API key provided"]).
Proof.
  intros Hrc Hfmt Hh Hs Hne Hk Hhne Hdiff.
  rewrite (run_configured I event context p t s) by done. cbn zeta.
  rewrite Hk. simpl.
  destruct (String.eqb h "") eqn:E; [by apply String.eqb_eq in E|].
  destruct (String.eqb h s) eqn:E'; [by apply String.eqb_eq in E'|].
  done.
Qed.

Lemma X5_witness :
  lambda_handler scalars (gateway_event "secret12") PyNone env_secret =
    (Return (verdict false),
     logged env_secret
       [rec_invoked "abc123"; LogRecord WARNING "Invalid API key provided"]).
Proof.
  apply (X5_credential_mismatch scalars (gateway_event "secret12") PyNone
           env_secret "abc123" "secret123" "secret12").
  - vm_compute. exact I.
  - vm_compute. reflexivity.
  - vm_compute. exact I.
  - vm_compute. reflexivity.
  - discriminate.
  - vm_compute. reflexivity.
  - discriminate.
  - discriminate.
Defined.

(** X6: when [requestContext] and [headers] are each missing or a mapping,
    [str()] formats the [requestId] and the secret is non-empty, an
    ["x-api-key"] entry that is not a string (null, a boolean, a number,
    an array, an object) is rejected: the handler returns
    [{"isAuthorized": false}], logging "Invalid API key provided" when the
    value is truthy and "No x-api-key header provided" when it is falsy. *)
Theorem X6_non_string_key_rejected I event context p t s v :
  mapping_or_absent (event !! "requestContext") ->
  py_str I (request_id event) = Return t ->
  mapping_or_absent (event !! "headers") ->
  environ p !! ADMIN_API_KEY = Some s -> s <> "" ->
  x_api_key event = Some v ->
  (forall h, v <> PyStr h) ->
  lambda_handler I event context p =
    (Return (verdict false),
     logged p [rec_invoked t;
               if truthy v then rec_invalid else rec_no_header]).
Proof.
  intros Hrc Hfmt Hh Hs Hne Hk Hv.
  rewrite (run_configured I event context p t s) by done. cbn zeta.
  rewrite Hk. simpl.
  destruct (truthy v); simpl; [|done].
  destruct v; simpl; try done. by destruct (Hv s0).
Qed.

Lemma X6_witness :
  lambda_handler scalars (event_with_key (PyList [PyStr "secret123"])) PyNone
    env_secret =
    (Return (verdict false),
     logged env_secret
       [rec_invoked "abc123";
        if truthy (PyList [PyStr "secret123"])
        then rec_invalid else rec_no_header]).
Proof.
  apply (X6_non_string_key_rejected scalars
           (event_with_key (PyList [PyStr "secret123"])) PyNone env_secret
           "abc123" "secret123" (PyList [PyStr "secret123"])).
  - vm_compute. exact I.
  - vm_compute. reflexivity.
  - vm_compute. exact I.
  - vm_compute. reflexivity.
  - discriminate.
  - vm_compute. reflexivity.
  - discriminate.
Defined.

(** ** Beyond the claims: what can and cannot influence a run *)

(** X7: on any event whatsoever, well-shaped or not, a returned mapping
    whose [isAuthorized] field is [True] means the credentials matched:
    the secret is set and non-empty and the ["x-api-key"] header is that
    same string.  The handler never authorizes by accident. *)
Theorem X7_authorized_only_on_match I event context p d :
  fst (lambda_handler I event context p) = Return d ->
  d !! "isAuthorized" = Some (PyBool true) ->
  credentials_match p event.
Proof.
  destruct (run_classified I event context p) as (o & rs & -> & Hcase).
  simpl. intros -> Hd.
  inversion Hcase; subst; try done;
    rewrite verdict_lookup in Hd; discriminate.
Qed.

Lemma X7_witness :
  credentials_match env_secret (gateway_event "secret123").
Proof.
  apply (X7_authorized_only_on_match scalars (gateway_event "secret123")
           PyNone env_secret (verdict true)).
  - vm_compute. reflexivity.
  - vm_compute. reflexivity.
Defined.

(** X8: [ADMIN_API_KEY] is the only environment variable read.  Two
    environments that agree on it give the same outcome and append the
    same records, whatever else they define. *)
Theorem X8_only_the_secret_is_read I event context env1 env2 log :
  env1 !! ADMIN_API_KEY = env2 !! ADMIN_API_KEY ->
  fst (lambda_handler I event context (Process env1 log))
    = fst (lambda_handler I event context (Process env2 log)) /\
  emitted (snd (lambda_handler I event context (Process env1 log)))
    = emitted (snd (lambda_handler I event context (Process env2 log))).
Proof.
  intros Heq. run_handler.
  destruct (default (PyDict ∅) (event !! "requestContext")); simpl; try done.
  destruct (py_str I _) as [t|e]; simpl; try done.
  rewrite Heq.
  destruct (env2 !! ADMIN_API_KEY) as [[|c s]|]; simpl; try done.
  destruct (default (PyDict ∅) (event !! "headers")); simpl; try done.
  destruct (negb (truthy _)); [|destruct (eq_str _ _)]; done.
Qed.

Lemma X8_witness :
  fst (lambda_handler scalars (gateway_event "secret123") PyNone
         (Process (environ env_secret) []))
    = fst (lambda_handler scalars (gateway_event "secret123") PyNone
             (Process env_secret_among_others [])).
Proof.
  apply (X8_only_the_secret_is_read scalars (gateway_event "secret123")
           PyNone (environ env_secret) env_secret_among_others []).
  vm_compute. reflexivity.
Defined.

(** X9: of the event, only the top-level entries ["requestContext"] and
    ["headers"] are read.  Two events that agree on these two entries run
    identically, down to the exception raised and the records logged, with
    no assumption on their shape. *)
Theorem X9_only_two_entries_are_read I event1 event2 context p :
  event1 !! "requestContext" = event2 !! "requestContext" ->
  event1 !! "headers" = event2 !! "headers" ->
  lambda_handler I event1 context p = lambda_handler I event2 context p.
Proof.
  intros Hrc Hh. run_handler. by rewrite Hrc, Hh.
Qed.

Lemma X9_witness :
  lambda_handler scalars (<[ "rawPath" := PyStr "/admin" ]> event_null_headers)
    PyNone env_secret
    = lambda_handler scalars event_null_headers PyNone env_secret.
Proof.
  apply (X9_only_two_entries_are_read scalars
           (<[ "rawPath" := PyStr "/admin" ]> event_null_headers)
           event_null_headers PyNone env_secret).
  - vm_compute. reflexivity.
  - vm_compute. reflexivity.
Defined.

(** ** Beyond the claims: the log *)

(** X10: a run appends at most two records to the log and touches nothing
    logged before.  It appends exactly two when it returns, fewer when it
    raises.  The first is always the invocation record, carrying
    [str(requestId)]; every other one is one of the four fixed outcome
    records. *)
Theorem X10_log_shape I event context p :
  let run := lambda_handler I event context p in
  let rs := new_records p (snd run) in
  emitted (snd run) = emitted p ++ rs /\
  length rs <= 2 /\
  (length rs = 2 <-> exists d, fst run = Return d) /\
  (forall r, head rs = Some r ->
     exists t, py_str I (request_id event) = Return t /\ r = rec_invoked t) /\
  (forall r, In r (tail rs) -> In r outcome_records).
Proof.
  destruct (run_classified I event context p) as (o & rs & Hrun & Hcase).
  cbn zeta. rewrite Hrun. cbn [fst snd]. rewrite new_records_logged.
  split; [done|].
  inversion Hcase; subst; simpl.
  all: split; [lia|].
  all: split;
    [split;
       first [ intros ?; lia | intros [? [=]]
             | intros _; by eexists | intros _; reflexivity ]|].
  all: split; [first [intros ? [= <-]; by eexists | intros ? [=]]|].
  all: first [intros ? [<-|[]]; tauto | intros ? []].
Qed.

(** X11: the outcome record tells the branch.  Say that line 53 lets the
    event through when [requestContext] is missing or a mapping and
    [str()] formats the [requestId].  "API key validated successfully" is
    logged exactly when the verdict is true; the error-level record
    exactly when line 53 lets the event through and the secret is unset or
    empty; "No x-api-key header provided" exactly when line 53 lets the
    event through, the secret is configured, [headers] is missing or a
    mapping and the header value is falsy; "Invalid API key provided"
    exactly when, instead, the header value is truthy and is not the
    secret. *)
Theorem X11_outcome_record_tells_the_branch I event context p :
  let run := lambda_handler I event context p in
  let rs := new_records p (snd run) in
  let through :=
    mapping_or_absent (event !! "requestContext") /\
    formattable I (request_id event) in
  let configured :=
    mapping_or_absent (event !! "headers") /\ ~ secret_missing p in
  let key := default PyNone (x_api_key event) in
  (In rec_validated rs <-> fst run = Return (verdict true)) /\
  (In rec_not_set rs <-> through /\ secret_missing p) /\
  (In rec_no_header rs <-> through /\ configured /\ truthy key = false) /\
  (In rec_invalid rs <->
     through /\ configured /\ truthy key = true /\
     ~ credentials_match p event).
Proof.
  destruct (run_classified I event context p) as (o & rs & Hrun & Hcase).
  cbn zeta. rewrite Hrun. cbn [fst snd]. rewrite new_records_logged.
  unfold formattable.
  inversion Hcase; subst; simpl.
  all: try match goal with
       | H : credentials_match _ _ |- _ =>
           pose proof (credentials_match_truthy _ _ H)
       end.
  all: (split; [|split; [|split]]); split.
  all: try (intros [= ?%verdict_inj]).
  all: try discriminate.
  all: try tauto.
  all: try (intros [[=]|[[=]|[]]]).
  all: try (intros [[=]|[]]).
  all: try (intros _; repeat split; eauto; fail).
  all: try (intuition (try discriminate; try congruence; eauto); fail).
  all: intros [[_ [t Ht]] _]; congruence.
Qed.
